(** * CodeGenesis: the git workflow state machine

    A shallow embedding of [git_manager.py] (the command executor, the
    branch-topology engine, the remote synchronisation and the two-phase
    coordinator), of the collaborators it is composed with
    ([github_manager.py], [file_creator.py], the tail of
    [gui.py]'s [create_project]) and of the pieces of their environment
    the workflow depends on (Python's [shlex.split], a [git] repository).

    Effects are explicit: every method is a function from a program
    state to a result (a value or a raised exception) and a new state.
    Calls to [logger] only write log lines and never influence a result;
    they are left out. *)

From Stdlib Require Import ZArith Ascii String List Bool Lia.
From stdpp Require Import base strings gmap list.

Open Scope string_scope.
Open Scope list_scope.
Open Scope Z_scope.

(** ** Characters and strings used by the sources *)

Definition dquote_char : ascii := "034"%char.
Definition squote_char : ascii := "039"%char.
Definition backslash_char : ascii := "092"%char.
Definition dash_char : ascii := "045"%char.

Definition dq : string := String dquote_char EmptyString.
Definition nl : string := String "010"%char EmptyString.

(** Python truthiness of an optional string ([None] and the empty string
    are falsy). *)
Definition truthy (o : option string) : bool :=
  match o with
  | Some s => negb (String.eqb s EmptyString)
  | None => false
  end.

(** [sep.join(l)]. *)
Fixpoint join (sep : string) (l : list string) : string :=
  match l with
  | [] => EmptyString
  | [x] => x
  | x :: rest => x +:+ sep +:+ join sep rest
  end.

(** ** [shlex.split(s)]: POSIX mode, [whitespace_split], no commenters *)

Module Shlex.

Definition whitespace (c : ascii) : bool :=
  Ascii.eqb c " " || Ascii.eqb c "009" || Ascii.eqb c "013" || Ascii.eqb c "010".
Definition quotes (c : ascii) : bool :=
  Ascii.eqb c squote_char || Ascii.eqb c dquote_char.
Definition escape (c : ascii) : bool := Ascii.eqb c backslash_char.
Definition escapedquotes (c : ascii) : bool := Ascii.eqb c dquote_char.

(** The lexer's [state] attribute: [' '], ['a'], a quote character, or
    the escape character (with [escapedstate], the state to return to:
    [None] for ['a'], [Some q] for the quote [q]). *)
Inductive lexer_state :=
| InSpace
| InWord
| InQuote (q : ascii)
| InEscape (escapedstate : option ascii).

Definition add_char (token : string) (c : ascii) : string :=
  token +:+ String c EmptyString.

(** [read_token] returning [result]: a token is produced when it is
    non-empty or was quoted. *)
Definition emit (token : string) (quoted : bool) (rest : option (list string))
  : option (list string) :=
  if negb (String.eqb token EmptyString) || quoted
  then option_map (cons token) rest
  else rest.

(** The character loop of [read_token], iterated over the whole input
    as [list(lex)] does. [None] is the [ValueError] raised at end of
    input inside a quotation or after an escape character. *)
Fixpoint lex (st : lexer_state) (token : string) (quoted : bool)
    (input : string) : option (list string) :=
  match input with
  | EmptyString =>
      match st with
      | InSpace => Some []
      | InWord => emit token quoted (Some [])
      | InQuote _ => None
      | InEscape _ => None
      end
  | String nextchar rest =>
      match st with
      | InSpace =>
          if whitespace nextchar then lex InSpace EmptyString false rest
          else if escape nextchar then lex (InEscape None) token quoted rest
          else if quotes nextchar then lex (InQuote nextchar) token quoted rest
          else lex InWord (String nextchar EmptyString) quoted rest
      | InQuote q =>
          if Ascii.eqb nextchar q then lex InWord token true rest
          else if escape nextchar && escapedquotes q
               then lex (InEscape (Some q)) token true rest
          else lex (InQuote q) (add_char token nextchar) true rest
      | InEscape escapedstate =>
          match escapedstate with
          | Some q =>
              let token :=
                if negb (escape nextchar) && negb (Ascii.eqb nextchar q)
                then add_char token backslash_char else token in
              lex (InQuote q) (add_char token nextchar) quoted rest
          | None => lex InWord (add_char token nextchar) quoted rest
          end
      | InWord =>
          if whitespace nextchar
          then emit token quoted (lex InSpace EmptyString false rest)
          else if quotes nextchar then lex (InQuote nextchar) token quoted rest
          else if escape nextchar then lex (InEscape None) token quoted rest
          else lex InWord (add_char token nextchar) quoted rest
      end
  end.

Definition split (s : string) : option (list string) :=
  lex InSpace EmptyString false s.

End Shlex.

(** ** The environment: processes, files, HTTP *)

(** What [subprocess.run(argv, cwd=...)] can do: the child runs and
    exits with a status, or it cannot be started (missing executable or
    working directory: [FileNotFoundError], an [OSError]). *)
Inductive outcome :=
| Exited (returncode : Z) (stdout stderr : string)
| SpawnFailed.

(** Decoded JSON values, as [response.json()] returns them. *)
#[warnings="-register-all"]
Inductive json :=
| JNull
| JBool (b : bool)
| JNum (n : Z)
| JStr (s : string)
| JList (items : list json)
| JObj (fields : list (string * json)).

Inductive http_method := GET | POST | DELETE.

Record request := Request {
  req_method : http_method;
  req_url : string;
  req_headers : list (string * string);
  req_json : option json
}.

(** A call of [requests.get/post/delete]: it raises a
    [requests.RequestException] (connection error, timeout) or returns a
    response, whose body may or may not decode as JSON. *)
Inductive http_result :=
| RequestException
| Response (status_code : Z) (body : option json) (text : string).

Class World (W : Type) := {
  (** [subprocess.run(argv, cwd=cwd, ...)] *)
  spawn : string -> list string -> W -> outcome * W;
  (** [os.path.exists(path)] *)
  path_exists : string -> W -> bool;
  (** [open(path, "w")]: create or truncate; [None] is an [OSError] *)
  open_w : string -> W -> option W;
  (** [f.write(text)] on a file opened for writing *)
  write : string -> string -> W -> W;
  (** a request sent with [requests] *)
  http : request -> W -> http_result * W
}.

(** ** Program state, results and exceptions *)

Inductive exn :=
| ValueError
| IndexError
| OSError
| TypeError
| KeyError
| AttributeError
| UnboundLocalError.

Inductive res (A : Type) :=
| Ret (a : A)
| Raise (e : exn).
Arguments Ret {A} a.
Arguments Raise {A} e.

(** The world, plus what the program did to it so far: the argument
    vectors given to [subprocess.run], the HTTP requests sent and the
    message boxes shown (kind, title, text). *)
Record state (W : Type) := State {
  world : W;
  issued : list (list string);
  requests : list request;
  dialogs : list (string * string * string)
}.
Arguments State {W} _ _ _ _.
Arguments world {W} _.
Arguments issued {W} _.
Arguments requests {W} _.
Arguments dialogs {W} _.

Definition M (W A : Type) : Type := state W -> res A * state W.

Definition ret {W A} (a : A) : M W A := fun s => (Ret a, s).
Definition raise {W A} (e : exn) : M W A := fun s => (Raise e, s).
Definition bind {W A B} (c : M W A) (k : A -> M W B) : M W B :=
  fun s =>
    match c s with
    | (Ret a, s') => k a s'
    | (Raise e, s') => (Raise e, s')
    end.

Notation "x <- c ;; k" := (bind c (fun x => k))
  (at level 100, c at next level, right associativity).
Notation "c ;;; k" := (bind c (fun _ => k))
  (at level 100, right associativity).
(** [if not c: return False], followed by [k]. *)
Notation "'check' c ;; k" := (bind c (fun ok : bool => if ok then k else ret false))
  (at level 100, c at next level, right associativity).

(** A [for] loop whose body may [return]: [Some v] leaves the function
    with [v], [None] goes on with the next element. *)
Fixpoint for_in {W A R} (l : list A) (body : A -> M W (option R)) : M W (option R) :=
  match l with
  | [] => ret None
  | x :: rest =>
      r <- body x ;;
      match r with
      | Some v => ret (Some v)
      | None => for_in rest body
      end
  end.

(** [a and not c()]: [c] runs only when [a] is truthy. *)
Definition and_not {W} (a : bool) (c : M W bool) : M W bool :=
  if a then ok <- c ;; ret (negb ok) else ret false.

(** ** [git_manager.py] *)

(** [run_command] accepts a string or an argument list. *)
Inductive command :=
| CmdStr (s : string)
| CmdList (argv : list string).

Section GitManager.
Context {W : Type} `{World W}.
Variable project_path : string.

Definition run_command (command : command) : M W bool := fun s =>
  match (match command with
         | CmdStr str => Shlex.split str
         | CmdList argv => Some argv
         end) with
  | None => (Raise ValueError, s)
  | Some [] => (Raise IndexError, s)
  | Some argv =>
      let (out, w) := spawn project_path argv (world s) in
      let s' := State w (issued s ++ [argv]) (requests s) (dialogs s) in
      match out with
      | Exited returncode _ _ =>
          if returncode =? 0 then (Ret true, s') else (Ret false, s')
      | SpawnFailed => (Raise OSError, s')
      end
  end.

Definition initialize_repo : M W bool :=
  run_command (CmdStr "git init").

Definition set_remote (url : string) : M W bool :=
  run_command (CmdStr ("git remote add origin " +:+ url)).

Definition fetch_remote : M W bool :=
  run_command (CmdStr "git fetch origin").

Definition commit_changes (message : string) (allow_empty : bool) : M W bool :=
  let cmd := "git commit -m " +:+ dq +:+ message +:+ dq in
  let cmd := if allow_empty then cmd +:+ " --allow-empty" else cmd in
  run_command (CmdStr cmd).

Definition push_branch (branch_name : string) (force : bool) : M W bool :=
  let cmd := "git push origin " +:+ branch_name in
  let cmd := if force then cmd +:+ " --force" else cmd in
  run_command (CmdStr cmd).

Definition add_files : M W bool :=
  run_command (CmdStr "git add .").

(** The [feature_branches=None] default is replaced by [[]] on entry;
    the model takes the list. *)
Definition setup_branches (main_branch dev_branch staging_branch : string)
    (feature_branches : list string) : M W bool :=
  check run_command (CmdStr ("git checkout " +:+ main_branch)) ;;
  check run_command (CmdStr ("git checkout -b " +:+ dev_branch)) ;;
  check run_command (CmdStr ("git checkout " +:+ main_branch)) ;;
  check run_command (CmdStr ("git checkout -b " +:+ staging_branch)) ;;
  check commit_changes "Initial empty commit on staging" true ;;
  check push_branch staging_branch false ;;
  r <- for_in feature_branches (fun feature_branch =>
         ok <- run_command (CmdStr ("git checkout " +:+ dev_branch)) ;;
         if negb ok then ret (Some false) else
         ok <- run_command (CmdStr ("git checkout -b " +:+ feature_branch)) ;;
         if negb ok then ret (Some false) else
         ret None) ;;
  match r with
  | Some v => ret v
  | None =>
      check run_command (CmdStr ("git checkout " +:+ dev_branch)) ;;
      ret true
  end.

Definition setup_project (repo_url : option string)
    (main_branch dev_branch staging_branch : string)
    (feature_branches : list string) : M W bool :=
  check initialize_repo ;;
  check run_command (CmdStr ("git checkout -b " +:+ main_branch)) ;;
  check commit_changes "Initial empty commit" true ;;
  let branches :=
    check setup_branches main_branch dev_branch staging_branch feature_branches ;;
    ret true in
  if truthy repo_url then
    check set_remote (default EmptyString repo_url) ;;
    check push_branch main_branch true ;;
    check fetch_remote ;;
    branches
  else branches.

Definition finalize_project (repo_url : option string) (dev_branch : string)
    (feature_branches : list string) : M W bool :=
  check add_files ;;
  check commit_changes "Initial project setup on dev" false ;;
  failed <- and_not (truthy repo_url) (push_branch dev_branch false) ;;
  if failed then ret false else
  if truthy repo_url then
    r <- for_in feature_branches (fun feature_branch =>
           ok <- run_command (CmdStr ("git checkout " +:+ feature_branch)) ;;
           if negb ok then ret (Some false) else
           ok <- run_command (CmdStr ("git merge " +:+ dev_branch)) ;;
           if negb ok then ret (Some false) else
           ok <- push_branch feature_branch false ;;
           if negb ok then ret (Some false) else
           ret None) ;;
    match r with
    | Some v => ret v
    | None =>
        check run_command (CmdStr ("git checkout " +:+ dev_branch)) ;;
        ret true
    end
  else ret true.

End GitManager.

(** ** [github_manager.py] *)

(** Truthiness of a decoded JSON value ([null] is Python's [None]). *)
Definition json_truthy (j : json) : bool :=
  match j with
  | JNull => false
  | JBool b => b
  | JNum n => negb (n =? 0)
  | JStr s => negb (String.eqb s EmptyString)
  | JList items => match items with [] => false | _ => true end
  | JObj fields => match fields with [] => false | _ => true end
  end.

(** [d[key]] on a decoded object; the last binding of a key wins. *)
Fixpoint dict_get (key : string) (fields : list (string * json)) : option json :=
  match fields with
  | [] => None
  | (k, v) :: rest =>
      match dict_get key rest with
      | Some v' => Some v'
      | None => if String.eqb k key then Some v else None
      end
  end.

(** [j[key]] for a string [key]. *)
Definition subscript (j : json) (key : string) : res json :=
  match j with
  | JObj fields =>
      match dict_get key fields with
      | Some v => Ret v
      | None => Raise KeyError
      end
  | _ => Raise TypeError
  end.

Fixpoint chars (s : string) : list json :=
  match s with
  | EmptyString => []
  | String c rest => JStr (String c EmptyString) :: chars rest
  end.

(** [for l in j]. *)
Definition iterate (j : json) : res (list json) :=
  match j with
  | JList items => Ret items
  | JObj fields => Ret (map (fun kv => JStr (fst kv)) fields)
  | JStr s => Ret (chars s)
  | _ => Raise TypeError
  end.

(** [response.raise_for_status()] raises for 4xx and 5xx. *)
Definition raises_for_status (status_code : Z) : bool :=
  (400 <=? status_code) && (status_code <? 600).

Record GitHubManager := {
  token : option string;
  username : option string;
  is_available : bool;
  (** [self.headers] is assigned only when the credentials are there *)
  headers : option (list (string * string))
}.

(** [__init__], after the [.env] file was loaded: [pat] and [user] are
    [os.getenv("GITHUB_PAT")] and [os.getenv("GITHUB_USERNAME")]. *)
Definition GitHubManager_init (pat user : option string) : GitHubManager :=
  let available := truthy pat && truthy user in
  {| token := pat;
     username := user;
     is_available := available;
     headers :=
       if available
       then Some [("Authorization", "token " +:+ default "None" pat);
                  ("Accept", "application/vnd.github.v3+json")]
       else None |}.

Section GitHubManager.
Context {W : Type} `{World W}.
Variable self : GitHubManager.

Definition lift {A} (r : res A) : M W A := fun s => (r, s).

(** [requests.<method>(url, json=payload, headers=self.headers, timeout=10)] *)
Definition send (m : http_method) (url : string) (payload : option json)
  : M W http_result :=
  match headers self with
  | None => raise AttributeError
  | Some h => fun s =>
      let r := Request m url h payload in
      let (resp, w) := http r (world s) in
      (Ret resp, State w (issued s) (requests s ++ [r]) (dialogs s))
  end.

Definition get_language_templates : M W json :=
  if negb (is_available self) then ret (JList []) else
  resp <- send GET "https://api.github.com/gitignore/templates" None ;;
  match resp with
  | RequestException => ret (JList [])
  | Response status_code body _ =>
      if raises_for_status status_code then ret (JList []) else
      match body with
      | None => ret (JList [])
      | Some templates =>
          (* the log line evaluates [len(templates)] and [templates[:5]] *)
          match templates with
          | JList _ | JStr _ => ret templates
          | _ => raise TypeError
          end
      end
  end.

Fixpoint license_entries (items : list json) : res (list json) :=
  match items with
  | [] => Ret []
  | l :: rest =>
      match subscript l "key" with
      | Raise e => Raise e
      | Ret k =>
          match subscript l "name" with
          | Raise e => Raise e
          | Ret n =>
              match license_entries rest with
              | Raise e => Raise e
              | Ret entries => Ret (JObj [("key", k); ("name", n)] :: entries)
              end
          end
      end
  end.

Definition get_license_templates : M W json :=
  if negb (is_available self) then ret (JList []) else
  resp <- send GET "https://api.github.com/licenses" None ;;
  match resp with
  | RequestException => ret (JList [])
  | Response status_code body _ =>
      if raises_for_status status_code then ret (JList []) else
      match body with
      | None => ret (JList [])
      | Some j =>
          items <- lift (iterate j) ;;
          licenses <- lift (license_entries items) ;;
          ret (JList licenses)
      end
  end.

(** Returns the license text, or [JNull] for Python's [None]. *)
Definition get_license_content (license_key : string) : M W json :=
  if negb (is_available self) then ret JNull else
  resp <- send GET ("https://api.github.com/licenses/" +:+ license_key) None ;;
  match resp with
  | RequestException => ret JNull
  | Response status_code body _ =>
      if raises_for_status status_code then ret JNull else
      match body with
      | None => ret JNull
      | Some j => lift (subscript j "body")
      end
  end.

Definition get_gitignore_template (language : string) : M W json :=
  if negb (is_available self) then ret JNull else
  resp <- send GET ("https://api.github.com/gitignore/templates/" +:+ language) None ;;
  match resp with
  | RequestException => ret JNull
  | Response status_code body _ =>
      if raises_for_status status_code then ret JNull else
      match body with
      | None => ret JNull
      | Some j => lift (subscript j "source")
      end
  end.

Definition repo_api_url (repo_name : string) : string :=
  "https://api.github.com/repos/" +:+ default "None" (username self)
    +:+ "/" +:+ repo_name.

Definition check_repository_exists (repo_name : string) : M W bool :=
  if negb (is_available self) then ret false else
  resp <- send GET (repo_api_url repo_name) None ;;
  match resp with
  | RequestException => ret false
  | Response status_code _ _ => ret (status_code =? 200)
  end.

Definition delete_repository (repo_name : string) : M W bool :=
  if negb (is_available self) then ret false else
  resp <- send DELETE (repo_api_url repo_name) None ;;
  match resp with
  | RequestException => ret false
  | Response status_code _ _ => ret (negb (raises_for_status status_code))
  end.

(** In the handler of [create_repository] the log line reads
    [response.status_code]: when [requests.post] itself raised,
    [response] is unbound and the handler raises. *)
Definition create_repository (repo_name default_branch : string) (private : bool)
    (license_template : string) : M W (option string) :=
  if negb (is_available self) then ret None else
  let data := JObj [("name", JStr repo_name);
                    ("private", JBool private);
                    ("auto_init", JBool true);
                    ("default_branch", JStr default_branch);
                    ("license_template", JStr license_template)] in
  resp <- send POST "https://api.github.com/user/repos" (Some data) ;;
  match resp with
  | RequestException => raise UnboundLocalError
  | Response status_code _ _ =>
      if raises_for_status status_code then ret None else
      ret (Some ("https://github.com/" +:+ default "None" (username self)
                   +:+ "/" +:+ repo_name +:+ ".git"))
  end.

End GitHubManager.

(** ** [file_creator.py] *)

(** [os.path.join(a, b)] on POSIX. *)
Definition ends_with_slash (a : string) : bool :=
  match String.get (String.length a - 1) a with
  | Some c => Ascii.eqb c "/"
  | None => false
  end.

Definition path_join (a b : string) : string :=
  if String.prefix "/" b then b
  else if String.eqb a EmptyString || ends_with_slash a then a +:+ b
  else a +:+ "/" +:+ b.

(** [s.replace(old, new)] for a non-empty [old]: [skip] characters of a
    match just replaced are still to be passed over. *)
Fixpoint replace_from (skip : nat) (old new s : string) : string :=
  match s with
  | EmptyString => EmptyString
  | String c rest =>
      match skip with
      | S k => replace_from k old new rest
      | O =>
          if String.prefix old s
          then new +:+ replace_from (String.length old - 1) old new rest
          else String c (replace_from 0 old new rest)
      end
  end.

Definition replace (old new s : string) : string := replace_from 0 old new s.

Section FileCreator.
Context {W : Type} `{World W}.
(** Python's [str()] of a decoded JSON value, as an f-string
    interpolates it; it is the identity on strings. *)
Variable py_str : json -> string.
Variable project_path : string.
Variable author : string.
(** [self.github = GitHubManager()] *)
Variable github : GitHubManager.

Definition os_path_exists (path : string) : M W bool :=
  fun s => (Ret (path_exists path (world s)), s).

Definition open_for_writing (path : string) : M W unit := fun s =>
  match open_w path (world s) with
  | Some w => (Ret tt, State w (issued s) (requests s) (dialogs s))
  | None => (Raise OSError, s)
  end.

Definition f_write (path text : string) : M W unit := fun s =>
  (Ret tt, State (write path text (world s)) (issued s) (requests s) (dialogs s)).

(** The loop of [create_gitignore] has no early exit. *)
Fixpoint write_language_rules (gitignore_path : string) (languages : list string)
  : M W unit :=
  match languages with
  | [] => ret tt
  | lang :: rest =>
      gitignore_content <- get_gitignore_template github lang ;;
      (if json_truthy gitignore_content
       then f_write gitignore_path
              (nl +:+ "# " +:+ lang +:+ " specific ignore" +:+ nl
                 +:+ py_str gitignore_content)
       else f_write gitignore_path
              ("# " +:+ lang +:+ " (template not found)" +:+ nl)) ;;;
      write_language_rules gitignore_path rest
  end.

Definition create_gitignore (languages : list string) : M W unit :=
  let gitignore_path := path_join project_path ".gitignore" in
  present <- os_path_exists gitignore_path ;;
  if negb present then
    open_for_writing gitignore_path ;;;
    f_write gitignore_path ("# Auto-generated .gitignore" +:+ nl) ;;;
    f_write gitignore_path ("# .NET Debug and Build Outputs" +:+ nl) ;;;
    f_write gitignore_path
      ("bin/" +:+ nl +:+ "obj/" +:+ nl +:+ "*.dll" +:+ nl +:+ "*.exe" +:+ nl
         +:+ "*.pdb" +:+ nl +:+ "*.deps.json" +:+ nl
         +:+ "*.runtimeconfig.json" +:+ nl) ;;;
    f_write gitignore_path
      (nl +:+ "# IDE Files" +:+ nl +:+ ".idea/" +:+ nl +:+ "*.sln.iml" +:+ nl) ;;;
    f_write gitignore_path (nl +:+ "# Language-specific ignore" +:+ nl) ;;;
    write_language_rules gitignore_path languages
  else ret tt.

Definition create_license (license_key : string) : M W unit :=
  let license_path := path_join project_path "LICENSE" in
  present <- os_path_exists license_path ;;
  if negb present then
    license_content <- get_license_content github license_key ;;
    if json_truthy license_content then
      open_for_writing license_path ;;;
      match license_content with
      | JStr text =>
          f_write license_path
            (replace "[fullname]" author (replace "[year]" "2025" text))
      | _ => raise AttributeError
      end
    else
      open_for_writing license_path ;;;
      f_write license_path
        ("MIT License" +:+ nl +:+ nl +:+ "Copyright (c) 2025 " +:+ author +:+ nl)
  else ret tt.

Definition create_readme (project_name : string) : M W unit :=
  let readme_path := path_join project_path "README.md" in
  present <- os_path_exists readme_path ;;
  if negb present then
    open_for_writing readme_path ;;;
    f_write readme_path
      ("# " +:+ project_name +:+ nl +:+ nl +:+ "Created by " +:+ author +:+ nl)
  else ret tt.

End FileCreator.

(** ** [gui.py]: [create_project], from the construction of the
    [GitManager] on *)

Section ProjectCreatorApp.
Context {W : Type} `{World W}.
Variable py_str : json -> string.
(** The credentials in the process environment; every [GitHubManager()]
    is built from them. *)
Variables pat user : option string.

Definition messagebox (kind title text : string) : M W unit := fun s =>
  (Ret tt, State (world s) (issued s) (requests s) (dialogs s ++ [(kind, title, text)])).

(** The first part of [create_project] (input validation, the project
    directory, the GitHub dialogue) computes [project_path], [author],
    [selected_lang], [selected_license], [additional_branches],
    [final_name] and [repo_url]; [privacy] is what
    [get_repo_privacy()] answers. *)
Definition create_project (project_path author selected_lang selected_license : string)
    (additional_branches : list string) (final_name : string)
    (repo_url : option string) (privacy : bool) : M W unit :=
  ok <- setup_project project_path repo_url "main" "dev" "staging" additional_branches ;;
  if negb ok then messagebox "showerror" "CodeGenesis Error" "Git setup failed!" else
  let github := GitHubManager_init pat user in
  create_gitignore py_str project_path github [selected_lang] ;;;
  create_license project_path author github selected_license ;;;
  create_readme project_path author final_name ;;;
  ok <- finalize_project project_path repo_url "dev" additional_branches ;;
  if negb ok
  then messagebox "showerror" "CodeGenesis Error" "Failed to finalize Git setup!" else
  (if truthy repo_url then
     let privacy_str := if privacy then "private" else "public" in
     let pushed_branches := "dev" :: additional_branches in
     messagebox "showinfo" "CodeGenesis Success"
       ("Project pushed to " +:+ default "None" repo_url +:+ " (" +:+ privacy_str +:+ ")"
          +:+ nl +:+ "Pushed branches: " +:+ join ", " pushed_branches +:+ nl
          +:+ "Local-only: main (empty), staging (empty)")
   else ret tt) ;;;
  messagebox "showinfo" "CodeGenesis Success"
    ("Project initialized at '" +:+ project_path +:+ "'! Current branch: dev").

End ProjectCreatorApp.

(** ** The environment the workflow runs in: one project directory under
    [git]

    [git] is not part of the repository; this is a model of the commands
    the workflow emits, on a machine with one project directory. A file
    tree maps a path (relative to the directory) to the file's content. A
    commit is its tree and the identifiers of itself and of its
    ancestors, newest first. Ignore rules are not interpreted ([git add .]
    stages every file), the committer identity is configured and the
    remote, once bound, is reachable. A true merge of diverged histories
    is approximated: it succeeds with the union of the two trees when
    they agree on the paths they share, and is a conflict otherwise. *)

Module Git.

Record commit := Commit {
  tree : gmap string string;
  ancestry : list nat
}.

Record host := Host {
  git_installed : bool;
  (** the project directory, and the regular files in it *)
  root : string;
  files : gmap string string;
  (** [init.defaultBranch] *)
  default_branch : string;
  (** the repository in [root]: whether [.git] exists, the branch
      [HEAD] names, the local branches, the index, the URL bound to
      [origin], the branches the remote holds *)
  initialized : bool;
  head : string;
  branches : gmap string commit;
  index : gmap string string;
  origin : option string;
  remote_refs : gmap string commit;
  next_id : nat;
  (** how the GitHub API answers a request *)
  github_api : request -> http_result
}.

Definition with_files (f : gmap string string) (h : host) : host :=
  Host (git_installed h) (root h) f (default_branch h) (initialized h) (head h)
    (branches h) (index h) (origin h) (remote_refs h) (next_id h) (github_api h).
Definition with_head (b : string) (h : host) : host :=
  Host (git_installed h) (root h) (files h) (default_branch h) (initialized h) b
    (branches h) (index h) (origin h) (remote_refs h) (next_id h) (github_api h).
Definition with_branches (bs : gmap string commit) (h : host) : host :=
  Host (git_installed h) (root h) (files h) (default_branch h) (initialized h) (head h)
    bs (index h) (origin h) (remote_refs h) (next_id h) (github_api h).
Definition with_index (i : gmap string string) (h : host) : host :=
  Host (git_installed h) (root h) (files h) (default_branch h) (initialized h) (head h)
    (branches h) i (origin h) (remote_refs h) (next_id h) (github_api h).
Definition with_origin (o : option string) (h : host) : host :=
  Host (git_installed h) (root h) (files h) (default_branch h) (initialized h) (head h)
    (branches h) (index h) o (remote_refs h) (next_id h) (github_api h).
Definition with_remote_refs (rs : gmap string commit) (h : host) : host :=
  Host (git_installed h) (root h) (files h) (default_branch h) (initialized h) (head h)
    (branches h) (index h) (origin h) rs (next_id h) (github_api h).
Definition with_next_id (n : nat) (h : host) : host :=
  Host (git_installed h) (root h) (files h) (default_branch h) (initialized h) (head h)
    (branches h) (index h) (origin h) (remote_refs h) n (github_api h).

(** The commands of the workflow's vocabulary. *)
Inductive git_command :=
| GInit
| GCheckout (branch : string)
| GCheckoutNew (branch : string)
| GCommit (message : string) (allow_empty : bool)
| GAddAll
| GRemoteAddOrigin (url : string)
| GFetchOrigin
| GPushOrigin (branch : string) (force : bool)
| GMerge (branch : string).

Definition is_option (arg : string) : bool := String.prefix "-" arg.

Definition parse (argv : list string) : option git_command :=
  match argv with
  | prog :: sub :: args =>
      if negb (String.eqb prog "git") then None
      else if String.eqb sub "init" then
        match args with [] => Some GInit | _ => None end
      else if String.eqb sub "checkout" then
        match args with
        | [b] => if is_option b then None else Some (GCheckout b)
        | [o; b] =>
            if String.eqb o "-b" && negb (is_option b)
            then Some (GCheckoutNew b) else None
        | _ => None
        end
      else if String.eqb sub "commit" then
        match args with
        | [o; m] => if String.eqb o "-m" then Some (GCommit m false) else None
        | [o; m; e] =>
            if String.eqb o "-m" && String.eqb e "--allow-empty"
            then Some (GCommit m true) else None
        | _ => None
        end
      else if String.eqb sub "add" then
        match args with
        | [p] => if String.eqb p "." then Some GAddAll else None
        | _ => None
        end
      else if String.eqb sub "remote" then
        match args with
        | [a; n; u] =>
            if String.eqb a "add" && String.eqb n "origin" && negb (is_option u)
            then Some (GRemoteAddOrigin u) else None
        | _ => None
        end
      else if String.eqb sub "fetch" then
        match args with
        | [n] => if String.eqb n "origin" then Some GFetchOrigin else None
        | _ => None
        end
      else if String.eqb sub "push" then
        match args with
        | [n; b] =>
            if String.eqb n "origin" && negb (is_option b)
            then Some (GPushOrigin b false) else None
        | [n; b; f] =>
            if String.eqb n "origin" && negb (is_option b) && String.eqb f "--force"
            then Some (GPushOrigin b true) else None
        | _ => None
        end
      else if String.eqb sub "merge" then
        match args with
        | [b] => if is_option b then None else Some (GMerge b)
        | _ => None
        end
      else None
  | _ => None
  end.

(** The tree of the commit [HEAD] is at; empty on an unborn branch. *)
Definition head_tree (h : host) : gmap string string :=
  match branches h !! head h with
  | Some c => tree c
  | None => ∅
  end.

Definition commit_id (c : commit) : option nat := List.head (ancestry c).

Definition is_ancestor (c d : commit) : bool :=
  match commit_id c with
  | Some i => bool_decide (i ∈ ancestry d)
  | None => false
  end.

(** Moving the working directory from tree [old] to tree [new]: refused
    when a tracked file is modified or staged changes exist, or when an
    untracked file is in the way; untracked files are kept. *)
Definition switch_tree (old new : gmap string string) (h : host) : option host :=
  if bool_decide (old = new) then Some h
  else
    let tracked := filter (fun kv => is_Some (old !! kv.1)) (files h) in
    let untracked := filter (fun kv => old !! kv.1 = None) (files h) in
    let in_the_way := filter (fun kv => is_Some (new !! kv.1)) untracked in
    if bool_decide (index h = old) && bool_decide (tracked = old)
       && bool_decide (in_the_way = ∅)
    then Some (with_files (new ∪ untracked) (with_index new h))
    else None.

Definition compatible (a b : gmap string string) : bool :=
  bool_decide (map_Forall (fun p v => b !! p = None \/ b !! p = Some v) a).

(** One command: exit status and new state. Outside a repository
    every command but [init] fails; [init] creates an empty repository
    (no branch, empty index, no remote) with [HEAD] on the unborn
    default branch, or leaves an existing one as it is. *)
Definition exec (c : git_command) (h : host) : Z * host :=
  if negb (initialized h) then
    match c with
    | GInit =>
        (0, Host (git_installed h) (root h) (files h) (default_branch h)
              true (default_branch h) ∅ ∅ None (remote_refs h) (next_id h)
              (github_api h))
    | _ => (128, h)
    end
  else
  match c with
  | GInit => (0, h)
  | GCheckoutNew b =>
      if String.eqb b EmptyString then (128, h) else
      match branches h !! b with
      | Some _ => (128, h)
      | None =>
          match branches h !! head h with
          | Some c => (0, with_head b (with_branches (<[b := c]> (branches h)) h))
          | None => (0, with_head b h)
          end
      end
  | GCheckout b =>
      match branches h !! b with
      | None => (1, h)
      | Some c =>
          match switch_tree (head_tree h) (tree c) h with
          | Some h' => (0, with_head b h')
          | None => (1, h)
          end
      end
  | GCommit _ allow_empty =>
      if negb allow_empty && bool_decide (index h = head_tree h) then (1, h) else
      let parents := match branches h !! head h with
                     | Some c => ancestry c
                     | None => []
                     end in
      let c := Commit (index h) (next_id h :: parents) in
      (0, with_next_id (S (next_id h))
            (with_branches (<[head h := c]> (branches h)) h))
  | GAddAll => (0, with_index (files h) h)
  | GRemoteAddOrigin url =>
      match origin h with
      | Some _ => (3, h)
      | None => (0, with_origin (Some url) h)
      end
  | GFetchOrigin =>
      match origin h with
      | Some _ => (0, h)
      | None => (128, h)
      end
  | GPushOrigin b force =>
      match origin h with
      | None => (128, h)
      | Some _ =>
          match branches h !! b with
          | None => (1, h)
          | Some c =>
              let fast_forward := match remote_refs h !! b with
                                  | Some r => is_ancestor r c
                                  | None => true
                                  end in
              if force || fast_forward
              then (0, with_remote_refs (<[b := c]> (remote_refs h)) h)
              else (1, h)
          end
      end
  | GMerge b =>
      match branches h !! b with
      | None => (1, h)
      | Some c =>
          match branches h !! head h with
          | None =>
              match switch_tree ∅ (tree c) h with
              | Some h' => (0, with_branches (<[head h := c]> (branches h')) h')
              | None => (1, h)
              end
          | Some cur =>
              if is_ancestor c cur then (0, h)
              else if is_ancestor cur c then
                match switch_tree (tree cur) (tree c) h with
                | Some h' => (0, with_branches (<[head h := c]> (branches h')) h')
                | None => (1, h)
                end
              else if compatible (tree cur) (tree c) then
                let merged := Commit (tree cur ∪ tree c)
                                (next_id h :: ancestry cur ++ ancestry c) in
                match switch_tree (tree cur) (tree merged) h with
                | Some h' =>
                    (0, with_next_id (S (next_id h))
                          (with_branches (<[head h := merged]> (branches h')) h'))
                | None => (1, h)
                end
              else (1, h)
          end
      end
  end.

(** [git <...>] run in directory [cwd]. An argument vector outside
    the vocabulary is a usage error. *)
Definition run (cwd : string) (argv : list string) (h : host) : outcome * host :=
  if negb (git_installed h) || negb (String.eqb cwd (root h)) then (SpawnFailed, h)
  else
    match argv with
    | prog :: _ =>
        if negb (String.eqb prog "git") then (SpawnFailed, h) else
        match parse argv with
        | None => (Exited 129 EmptyString EmptyString, h)
        | Some c =>
            let (status, h') := exec c h in
            (Exited status EmptyString EmptyString, h')
        end
    | [] => (SpawnFailed, h)
    end.


(** Paths of the project directory, relative to it. *)
Fixpoint strip_prefix (pre s : string) : option string :=
  match pre with
  | EmptyString => Some s
  | String a pre' =>
      match s with
      | String b s' => if Ascii.eqb a b then strip_prefix pre' s' else None
      | EmptyString => None
      end
  end.

Definition relative (h : host) (path : string) : option string :=
  strip_prefix (path_join (root h) EmptyString) path.

Definition exists_file (path : string) (h : host) : bool :=
  match relative h path with
  | Some p => bool_decide (is_Some (files h !! p))
  | None => false
  end.

Definition create_file (path : string) (h : host) : option host :=
  match relative h path with
  | Some p => Some (with_files (<[p := EmptyString]> (files h)) h)
  | None => None
  end.

Definition append_file (path text : string) (h : host) : host :=
  match relative h path with
  | Some p => with_files (<[p := default EmptyString (files h !! p) +:+ text]> (files h)) h
  | None => h
  end.

#[global] Instance host_world : World host := {
  spawn := run;
  path_exists := exists_file;
  open_w := create_file;
  write := append_file;
  http := fun r h => (github_api h r, h)
}.

(** A machine with git installed, an empty project directory [dir]
    that is not yet a repository, and no network. *)
Definition fresh (dir : string) : host :=
  Host true dir ∅ "master" false EmptyString ∅ ∅ None ∅ 0
    (fun _ => RequestException).

End Git.

(** A program state before anything was done. *)
Definition start {W} (w : W) : state W := State w [] [] [].

(** Example machines: a project directory, the directory already cloned
    from an empty remote (a repository without branches whose [origin]
    is bound), an existing repository without commits in which a file is
    staged, a machine without git, and a directory that already holds
    the three boilerplate files. *)
Definition demo_dir : string := "/w/demo".

Definition cloned_empty : Git.host :=
  Git.Host true demo_dir ∅ "master" true "master" ∅ ∅
    (Some "https://github.com/octocat/demo.git") ∅ 0 (fun _ => RequestException).


Definition without_git : Git.host :=
  Git.Host false demo_dir ∅ "master" false EmptyString ∅ ∅ None ∅ 0
    (fun _ => RequestException).

Definition populated : Git.host :=
  Git.with_files
    (<[".gitignore" := "*.pyc"]> (<["LICENSE" := "All rights reserved"]>
       (<["README.md" := "# demo"]> ∅)))
    (Git.fresh demo_dir).

(** A rendering of JSON values that is the identity on strings. *)
Definition show_json (j : json) : string :=
  match j with
  | JStr s => s
  | _ => "<json>"
  end.

(** ** Command sequences

    [run_steps] runs command strings in order through [run_command] and
    stops at the first one that does not return [True]; the plans below
    are the sequences sections 4.2 to 4.4 of the specification list. *)

Section Plans.
Context {W : Type} `{World W}.
Variable project_path : string.

Fixpoint run_steps (commands : list string) : M W bool :=
  match commands with
  | [] => ret true
  | c :: rest => check run_command project_path (CmdStr c) ;; run_steps rest
  end.

End Plans.

Definition empty_commit (message : string) : string :=
  "git commit -m " +:+ dq +:+ message +:+ dq +:+ " --allow-empty".

Definition branches_plan (main_branch dev_branch staging_branch : string)
    (feature_branches : list string) : list string :=
  [ "git checkout " +:+ main_branch;
    "git checkout -b " +:+ dev_branch;
    "git checkout " +:+ main_branch;
    "git checkout -b " +:+ staging_branch;
    empty_commit "Initial empty commit on staging";
    "git push origin " +:+ staging_branch ]
  ++ flat_map (fun feature_branch =>
                 [ "git checkout " +:+ dev_branch;
                   "git checkout -b " +:+ feature_branch ]) feature_branches
  ++ [ "git checkout " +:+ dev_branch ].

Definition init_plan (main_branch : string) : list string :=
  [ "git init";
    "git checkout -b " +:+ main_branch;
    empty_commit "Initial empty commit" ].

Definition seed_plan (url main_branch : string) : list string :=
  [ "git remote add origin " +:+ url;
    "git push origin " +:+ main_branch +:+ " --force";
    "git fetch origin" ].

Definition setup_plan (repo_url : option string)
    (main_branch dev_branch staging_branch : string)
    (feature_branches : list string) : list string :=
  init_plan main_branch
  ++ (if truthy repo_url then seed_plan (default EmptyString repo_url) main_branch else [])
  ++ branches_plan main_branch dev_branch staging_branch feature_branches.



(** The argument vector a command string is run with, when there is one. *)
Definition argv_of (command : string) : option (list string) :=
  match Shlex.split command with
  | Some (prog :: args) => Some (prog :: args)
  | _ => None
  end.

(** A command that targets the remote. *)
Definition targets_remote (argv : list string) : bool :=
  match argv with
  | _ :: sub :: _ => String.eqb sub "remote" || String.eqb sub "push" || String.eqb sub "fetch"
  | _ => false
  end.


(** Names as the form hands them over: not empty, not an option, and
    free of blanks, quotes and backslashes. *)
Fixpoint plain_chars (s : string) : bool :=
  match s with
  | EmptyString => true
  | String c rest =>
      negb (Shlex.whitespace c) && negb (Shlex.quotes c) && negb (Shlex.escape c)
      && plain_chars rest
  end.

Definition plain (s : string) : bool :=
  negb (String.eqb s EmptyString) && negb (Git.is_option s) && plain_chars s.


(** The tracked files of a local branch, when it exists. *)
Definition tracked (h : Git.host) (branch : string) : option (gmap string string) :=
  Git.tree <$> (Git.branches h !! branch).








(** A command string that reaches [git] as the command [c]. *)
Definition reads_as (command : string) (c : Git.git_command) : Prop :=
  exists argv, Shlex.split command = Some argv /\ Git.parse argv = Some c.

(** ** Invariants of the workflow on the repository model *)







Definition present (name : string) (g : Git.host) : Prop :=
  is_Some (Git.files g !! name).



(** ** [gui_manager.py] and the first half of [gui.py] *)

(** [c.isspace()] for a character below 256: tab to carriage return,
    the four separators 28 to 31, the blank, NEL and the no-break
    space. *)
Definition py_isspace (c : ascii) : bool :=
  let n := nat_of_ascii c in
  ((9 <=? n)%nat && (n <=? 13)%nat) || ((28 <=? n)%nat && (n <=? 32)%nat)
  || (n =? 133)%nat || (n =? 160)%nat.

Fixpoint lstrip (s : string) : string :=
  match s with
  | EmptyString => EmptyString
  | String c rest => if py_isspace c then lstrip rest else s
  end.

Fixpoint rstrip (s : string) : string :=
  match s with
  | EmptyString => EmptyString
  | String c rest =>
      match rstrip rest with
      | EmptyString => if py_isspace c then EmptyString else String c EmptyString
      | kept => String c kept
      end
  end.

(** [s.strip()] *)
Definition strip (s : string) : string := rstrip (lstrip s).

(** [sub in s] for a one-character [sub]. *)
Fixpoint contains_char (c : ascii) (s : string) : bool :=
  match s with
  | EmptyString => false
  | String x rest => Ascii.eqb x c || contains_char c rest
  end.

Definition nonempty (s : string) : bool := negb (String.eqb s EmptyString).

(** [GuiManager.get_additional_branches]: [vars] are the texts of the
    branch entry fields. *)
Definition get_additional_branches (vars : list string) : list string :=
  List.filter nonempty (List.map strip vars).

(** [GuiManager.get_selected_language] and [get_selected_license]:
    [selected] is the text of the combo box. *)
Definition get_selected_language (selected : string) : option string :=
  if negb (String.eqb selected "Select a language") then Some selected else None.

Definition get_selected_license (selected : string) : option string :=
  if negb (String.eqb selected "Select a license") then Some selected else None.

(** What the form holds when the button is pressed. *)
Record form := Form {
  project_name_var : string;
  author_var : string;
  destination_folder_var : string;
  selected_language_var : string;
  selected_license_var : string;
  branch_vars : list string
}.

(** The values [validate_input] returns when it accepts the form; the
    tuple of [None]s it returns otherwise is [None]. *)
Record inputs := Inputs {
  in_project_name : string;
  in_author : string;
  in_destination_folder : string;
  in_selected_lang : string;
  in_selected_license : string;
  in_additional_branches : list string
}.

Section Validation.
Context {W : Type} `{World W}.

Definition validate_input (f : form) : M W (option inputs) :=
  let project_name := strip (project_name_var f) in
  let author := strip (author_var f) in
  let destination_folder := strip (destination_folder_var f) in
  let selected_lang := get_selected_language (selected_language_var f) in
  let selected_license :=
    if truthy (get_selected_license (selected_license_var f))
    then default EmptyString (get_selected_license (selected_license_var f))
    else "mit" in
  let additional_branches := get_additional_branches (branch_vars f) in
  if negb (nonempty project_name && nonempty author && nonempty destination_folder
           && truthy selected_lang) then
    messagebox "showerror" "CodeGenesis Error"
      "All fields (name, author, folder, language) are required!" ;;;
    ret None
  else if existsb (contains_char " ") additional_branches then
    messagebox "showerror" "CodeGenesis Error" "Branch names cannot contain spaces!" ;;;
    ret None
  else
    ret (Some (Inputs project_name author destination_folder
                 (default EmptyString selected_lang) selected_license
                 additional_branches)).

(** The GitHub dialogue of [create_project] (the [while True] loop of
    lines 87 to 110). The user's answers are scripted: [answers] to the
    yes/no boxes, [names] to the name prompt ([None] when cancelled); each
    question is recorded with the message boxes. The loop returns
    [repo_name] and [final_name] as they are when it is left, or [None]
    when the script ends while a question is open. *)
Fixpoint repository_name_loop (github : GitHubManager) (local_name : string)
    (answers : list bool) (names : list (option string))
    (repo_name final_name : string) : M W (option (string * string)) :=
  match answers with
  | [] => ret None
  | response :: answers =>
      messagebox "askyesno" "GitHub Repository Name"
        ("Use '" +:+ repo_name +:+ "' as GitHub repo name?" +:+ nl
           +:+ "'No' uses '" +:+ local_name +:+ "'.") ;;;
      let repo_name := if negb response then local_name else repo_name in
      present <- check_repository_exists github repo_name ;;
      if present then
        match answers with
        | [] => ret None
        | overwrite :: answers =>
            messagebox "askyesno" "Repository Exists"
              ("'" +:+ repo_name +:+ "' exists. Overwrite it? (Deletes existing repo!)") ;;;
            if overwrite then
              delete_repository github repo_name ;;;
              ret (Some (repo_name, final_name))
            else
              match names with
              | [] => ret None
              | new_name :: names =>
                  messagebox "askstring" "New Repository Name"
                    "Enter a new GitHub repo name (or cancel to skip):" ;;;
                  if negb (truthy new_name)
                     || negb (nonempty (strip (default EmptyString new_name)))
                  then
                    messagebox "showwarning" "CodeGenesis Warning" "GitHub setup skipped" ;;;
                    ret (Some (repo_name, local_name))
                  else
                    repository_name_loop github local_name answers names
                      (strip (default EmptyString new_name)) final_name
              end
        end
      else ret (Some (repo_name, final_name))
  end.

(** Lines 82 to 114 of [create_project]: [use_github] is the state of
    the check box, [privacy] what [get_repo_privacy()] answers,
    [local_name] the base name of the destination folder. The result is
    [(repo_url, final_name)]. *)
Definition choose_repository (github : GitHubManager) (use_github privacy : bool)
    (project_name local_name : string) (answers : list bool)
    (names : list (option string)) : M W (option (option string * string)) :=
  let final_name := project_name in
  if use_github && is_available github then
    left <- repository_name_loop github local_name answers names project_name final_name ;;
    match left with
    | None => ret None
    | Some (repo_name, final_name) =>
        if nonempty repo_name then
          repo_url <- create_repository github repo_name "main" privacy "mit" ;;
          ret (Some (repo_url, repo_name))
        else ret (Some (None, final_name))
    end
  else ret (Some (None, final_name)).

End Validation.

(** * Properties *)

(** ** The monad and command sequences *)

Lemma bind_ext {W A B} (c : M W A) (k1 k2 : A -> M W B) (s : state W) :
  (forall a s', k1 a s' = k2 a s') -> bind c k1 s = bind c k2 s.
Proof.
  intros Hk. unfold bind. destruct (c s) as [[a|e] s']; [apply Hk | reflexivity].
Qed.

Lemma check_ext {W} (c : M W bool) (k1 k2 : M W bool) (s : state W) :
  (forall s', k1 s' = k2 s') ->
  bind c (fun ok : bool => if ok then k1 else ret false) s
  = bind c (fun ok : bool => if ok then k2 else ret false) s.
Proof. intros Hk. apply bind_ext. intros [|] s'; [apply Hk | reflexivity]. Qed.

Lemma append_cons (x : ascii) (a b : string) : String x a +:+ b = String x (a +:+ b).
Proof. reflexivity. Qed.

Lemma append_empty (b : string) : EmptyString +:+ b = b.
Proof. reflexivity. Qed.

Lemma append_assoc (a b c : string) : (a +:+ b) +:+ c = a +:+ (b +:+ c).
Proof.
  induction a as [|x a IH]; [reflexivity |].
  rewrite !append_cons. by rewrite IH.
Qed.

Section PlanFacts.
Context {W : Type} `{World W}.
Variable project_path : string.

Lemma run_steps_app (p q : list string) (s : state W) :
  run_steps project_path (p ++ q) s
  = bind (run_steps project_path p)
      (fun ok : bool => if ok then run_steps project_path q else ret false) s.
Proof.
  revert s. induction p as [|c p IH]; intros s; simpl.
  - reflexivity.
  - unfold bind in *. destruct (run_command project_path (CmdStr c) s) as [[[|]|e] s'].
    + apply IH.
    + reflexivity.
    + reflexivity.
Qed.

(** One command: nothing is issued when the string has no argument
    vector (the call raises), its argument vector is issued otherwise. *)
Lemma run_command_issued (c : string) (s : state W) :
  (argv_of c = None /\
   exists e, run_command project_path (CmdStr c) s = (Raise e, s))
  \/ (exists argv r s',
        argv_of c = Some argv /\
        run_command project_path (CmdStr c) s = (r, s') /\
        issued s' = issued s ++ [argv]).
Proof.
  unfold run_command, argv_of.
  destruct (Shlex.split c) as [[|prog args]|].
  - left. eauto.
  - right. destruct (spawn project_path (prog :: args) (world s)) as [out w].
    destruct out as [code so se|]; [destruct (code =? 0)|]; eauto 10.
  - left. eauto.
Qed.

(** What a run of a plan leaves in the record of issued commands: the
    argument vectors of a prefix of the plan, the whole plan when the
    run returns [True]. *)
Lemma run_steps_issued (plan : list string) (s : state W) :
  exists n : nat,
    (n <= length plan)%nat /\
    issued (run_steps project_path plan s).2
      = issued s ++ omap argv_of (take n plan) /\
    ((run_steps project_path plan s).1 = Ret true -> n = length plan).
Proof.
  revert s. induction plan as [|c plan IH]; intros s.
  - exists 0%nat. simpl. rewrite app_nil_r. auto.
  - simpl run_steps. unfold bind.
    destruct (run_command_issued c s) as [[Hnone [e He]] | (argv & r & s' & Hsome & Hrun & Hiss)].
    + rewrite He. exists 1%nat. simpl. rewrite Hnone.
      simpl. rewrite app_nil_r. repeat split; [lia | discriminate].
    + rewrite Hrun. destruct r as [[|]|e].
      * destruct (IH s') as (n & Hn & Hi & Hr).
        exists (S n). simpl. rewrite Hsome. simpl.
        rewrite Hi, Hiss, <- app_assoc. simpl.
        repeat split; [lia | intros Ht; f_equal; auto].
      * exists 1%nat. simpl. rewrite Hsome. simpl.
        repeat split; [lia | done | discriminate].
      * exists 1%nat. simpl. rewrite Hsome. simpl.
        repeat split; [lia | done | discriminate].
Qed.

(** The feature loop of [setup_branches], followed by what comes after
    it, is a plan. *)
Lemma setup_loop_plan (dev_branch : string) (features : list string)
    (tail : list string) (s : state W) :
  bind (for_in features (fun feature_branch =>
          ok <- run_command project_path (CmdStr ("git checkout " +:+ dev_branch)) ;;
          if negb ok then ret (Some false) else
          ok <- run_command project_path (CmdStr ("git checkout -b " +:+ feature_branch)) ;;
          if negb ok then ret (Some false) else
          ret None))
    (fun r : option bool =>
       match r with
       | Some v => ret v
       | None => run_steps project_path tail
       end) s
  = run_steps project_path
      (flat_map (fun feature_branch =>
                   [ "git checkout " +:+ dev_branch;
                     "git checkout -b " +:+ feature_branch ]) features ++ tail) s.
Proof.
  revert s. induction features as [|f features IH]; intros s.
  - reflexivity.
  - simpl. unfold bind in *.
    destruct (run_command project_path (CmdStr ("git checkout " +:+ dev_branch)) s)
      as [[[|]|e] s1]; simpl; try reflexivity.
    destruct (run_command project_path (CmdStr ("git checkout -b " +:+ f)) s1)
      as [[[|]|e] s2]; simpl; try reflexivity.
    apply IH.
Qed.

Lemma setup_branches_plan (main_branch dev_branch staging_branch : string)
    (features : list string) (s : state W) :
  setup_branches project_path main_branch dev_branch staging_branch features s
  = run_steps project_path
      (branches_plan main_branch dev_branch staging_branch features) s.
Proof.
  unfold setup_branches, branches_plan, commit_changes, push_branch.
  simpl app. simpl run_steps.
  do 6 (apply check_ext; intros ?).
  exact (setup_loop_plan dev_branch features ["git checkout " +:+ dev_branch] _).
Qed.

End PlanFacts.

Section CoordinatorPlans.
Context {W : Type} `{World W}.
Variable project_path : string.

Lemma check_ret (c : M W bool) (s : state W) :
  bind c (fun ok : bool => if ok then ret true else ret false) s = c s.
Proof. unfold bind, ret. by destruct (c s) as [[[|]|e] s']. Qed.


Lemma setup_project_plan (repo_url : option string)
    (main_branch dev_branch staging_branch : string) (features : list string)
    (s : state W) :
  setup_project project_path repo_url main_branch dev_branch staging_branch features s
  = run_steps project_path
      (setup_plan repo_url main_branch dev_branch staging_branch features) s.
Proof.
  unfold setup_project, setup_plan, init_plan, initialize_repo, commit_changes.
  simpl app. simpl run_steps.
  do 3 (apply check_ext; intros ?).
  assert (Hbranches : forall s0 : state W,
    bind (setup_branches project_path main_branch dev_branch staging_branch features)
      (fun ok : bool => if ok then ret true else ret false) s0
    = run_steps project_path
        (branches_plan main_branch dev_branch staging_branch features) s0).
  { intros s0. rewrite check_ret. apply setup_branches_plan. }
  destruct (truthy repo_url); [| apply Hbranches].
  unfold seed_plan, set_remote, push_branch, fetch_remote. simpl app. simpl run_steps.
  rewrite append_assoc.
  do 3 (apply check_ext; intros ?).
  apply Hbranches.
Qed.



End CoordinatorPlans.

(** ** The branch topology engine *)

(** C5. [setup_branches] issues its commands in exactly this order:
    checkout main; create-and-checkout dev; checkout main;
    create-and-checkout staging; the explicitly empty commit on staging;
    push staging; for each feature branch in the caller's order checkout
    dev, then create-and-checkout the feature branch; finally checkout
    dev. It runs them one after the other and stops at the first one that
    does not succeed: the commands issued are those of a prefix of this
    list, and of the whole list when the method returns [True]. With no
    feature branch the list is the first six steps and the final
    checkout of dev. *)
Theorem setup_branches_order :
  forall (W : Type) (HW : World W)
    (project_path main_branch dev_branch staging_branch : string)
    (features : list string) (s : state W),
    let plan :=
      [ "git checkout " +:+ main_branch;
        "git checkout -b " +:+ dev_branch;
        "git checkout " +:+ main_branch;
        "git checkout -b " +:+ staging_branch;
        "git commit -m " +:+ dq +:+ "Initial empty commit on staging" +:+ dq
          +:+ " --allow-empty";
        "git push origin " +:+ staging_branch ]
      ++ flat_map (fun feature_branch =>
                     [ "git checkout " +:+ dev_branch;
                       "git checkout -b " +:+ feature_branch ]) features
      ++ [ "git checkout " +:+ dev_branch ] in
    let result :=
      setup_branches project_path main_branch dev_branch staging_branch features s in
    result = run_steps project_path plan s
    /\ (exists n : nat,
          (n <= length plan)%nat
          /\ issued result.2 = issued s ++ omap argv_of (take n plan)
          /\ (result.1 = Ret true -> n = length plan))
    /\ (features = [] ->
        plan = [ "git checkout " +:+ main_branch;
                 "git checkout -b " +:+ dev_branch;
                 "git checkout " +:+ main_branch;
                 "git checkout -b " +:+ staging_branch;
                 "git commit -m " +:+ dq +:+ "Initial empty commit on staging" +:+ dq
                   +:+ " --allow-empty";
                 "git push origin " +:+ staging_branch;
                 "git checkout " +:+ dev_branch ]).
Proof.
  intros W HW project_path main_branch dev_branch staging_branch features s plan result.
  assert (Heq : result = run_steps project_path plan s)
    by apply setup_branches_plan.
  split; [exact Heq |]. split.
  - rewrite Heq. apply run_steps_issued.
  - intros ->. reflexivity.
Qed.

Lemma setup_branches_order_witness :
  [ "git checkout " +:+ "main";
    "git checkout -b " +:+ "dev";
    "git checkout " +:+ "main";
    "git checkout -b " +:+ "staging";
    "git commit -m " +:+ dq +:+ "Initial empty commit on staging" +:+ dq
      +:+ " --allow-empty";
    "git push origin " +:+ "staging" ]
  ++ flat_map (fun feature_branch =>
                 [ "git checkout " +:+ "dev";
                   "git checkout -b " +:+ feature_branch ]) []
  ++ [ "git checkout " +:+ "dev" ]
  = [ "git checkout " +:+ "main";
      "git checkout -b " +:+ "dev";
      "git checkout " +:+ "main";
      "git checkout -b " +:+ "staging";
      "git commit -m " +:+ dq +:+ "Initial empty commit on staging" +:+ dq
        +:+ " --allow-empty";
      "git push origin " +:+ "staging";
      "git checkout " +:+ "dev" ].
Proof.
  apply (setup_branches_order Git.host Git.host_world "/w/demo" "main" "dev" "staging" []
           (start (Git.fresh "/w/demo"))).
  reflexivity.
Defined.

(** ** The workflow coordinator *)


(** ** The remote-repository provider *)

(** C8. Without the full credential pair every operation of
    [GitHubManager] returns its fixed "unavailable" result (the empty
    list, [None], or [False]) and leaves the program state as it was: no
    HTTP request is sent and nothing is raised. *)
Theorem unavailable_github_is_inert :
  forall (W : Type) (HW : World W) (pat user : option string),
    truthy pat = false \/ truthy user = false ->
    forall (s : state W) (license_key language repo_name default_branch : string)
      (private : bool) (license_template : string),
      let github := GitHubManager_init pat user in
      get_language_templates github s = (Ret (JList []), s)
      /\ get_license_templates github s = (Ret (JList []), s)
      /\ get_license_content github license_key s = (Ret JNull, s)
      /\ get_gitignore_template github language s = (Ret JNull, s)
      /\ check_repository_exists github repo_name s = (Ret false, s)
      /\ delete_repository github repo_name s = (Ret false, s)
      /\ create_repository github repo_name default_branch private license_template s
         = (Ret None, s).
Proof.
  intros W HW pat user Hmissing s license_key language repo_name default_branch
    private license_template github.
  assert (Hoff : is_available github = false).
  { unfold github, GitHubManager_init. simpl.
    destruct Hmissing as [-> | ->]; [reflexivity | apply andb_false_r]. }
  unfold get_language_templates, get_license_templates, get_license_content,
    get_gitignore_template, check_repository_exists, delete_repository,
    create_repository.
  rewrite Hoff. simpl. repeat split.
Qed.

Lemma unavailable_github_is_inert_witness :
  let github := GitHubManager_init None (Some "octocat") in
  let s := start (Git.fresh "/w/demo") in
  get_language_templates github s = (Ret (JList []), s)
  /\ get_license_templates github s = (Ret (JList []), s)
  /\ get_license_content github "mit" s = (Ret JNull, s)
  /\ get_gitignore_template github "Python" s = (Ret JNull, s)
  /\ check_repository_exists github "demo" s = (Ret false, s)
  /\ delete_repository github "demo" s = (Ret false, s)
  /\ create_repository github "demo" "main" false "mit" s = (Ret None, s).
Proof.
  apply (unavailable_github_is_inert Git.host Git.host_world None (Some "octocat")).
  left. reflexivity.
Defined.

(** ** The boilerplate writers *)

(** C9. [create_gitignore], [create_license] and [create_readme] never
    overwrite: when a file exists at the target path the call returns
    with the program state unchanged, so the file keeps its content and
    nothing is written (nor requested). *)
Theorem writers_never_overwrite :
  forall (W : Type) (HW : World W) (py_str : json -> string)
    (project_path author : string) (github : GitHubManager) (s : state W),
    (forall languages,
        path_exists (path_join project_path ".gitignore") (world s) = true ->
        create_gitignore py_str project_path github languages s = (Ret tt, s))
    /\ (forall license_key,
          path_exists (path_join project_path "LICENSE") (world s) = true ->
          create_license project_path author github license_key s = (Ret tt, s))
    /\ (forall project_name,
          path_exists (path_join project_path "README.md") (world s) = true ->
          create_readme project_path author project_name s = (Ret tt, s)).
Proof.
  intros. unfold create_gitignore, create_license, create_readme, bind, os_path_exists.
  repeat split; intros ? ->; reflexivity.
Qed.

(** ** The command executor *)

(** C10, as the code has it. [run_command] returns [False] exactly when
    the process was started and exited with a non-zero status, and [True]
    exactly when it exited with status zero; it is not total over
    booleans: a command string that does not tokenize raises
    [ValueError] with nothing issued, and a process that cannot be
    started raises [OSError]. *)
Theorem run_command_outcomes :
  forall (W : Type) (HW : World W) (project_path : string) (cmd : command) (s : state W),
    let tokens := match cmd with
                  | CmdStr str => Shlex.split str
                  | CmdList argv => Some argv
                  end in
    let result := run_command project_path cmd s in
    (result.1 = Ret false <->
       exists argv code out err,
         tokens = Some argv /\ argv <> []
         /\ (spawn project_path argv (world s)).1 = Exited code out err /\ code <> 0)
    /\ (result.1 = Ret true <->
          exists argv out err,
            tokens = Some argv /\ argv <> []
            /\ (spawn project_path argv (world s)).1 = Exited 0 out err)
    /\ (tokens = None -> result = (Raise ValueError, s))
    /\ (forall argv,
          tokens = Some argv -> argv <> [] ->
          (spawn project_path argv (world s)).1 = SpawnFailed ->
          result.1 = Raise OSError).
Proof.
  intros W HW project_path cmd s tokens result.
  unfold result, run_command. fold tokens.
  destruct tokens as [[|prog args]|].
  - repeat split.
    + discriminate.
    + intros (argv & ? & ? & ? & [= <-] & Hne & _). by destruct Hne.
    + discriminate.
    + intros (argv & ? & ? & [= <-] & Hne & _). by destruct Hne.
    + discriminate.
    + intros argv [= <-] Hne. by destruct Hne.
  - destruct (spawn project_path (prog :: args) (world s)) as [out w] eqn:Hspawn.
    destruct out as [code so se|].
    + destruct (Z.eqb_spec code 0) as [-> | Hcode]; simpl; repeat split.
      * discriminate.
      * intros (argv & c & ? & ? & [= <-] & _ & Hout & Hc).
        rewrite Hspawn in Hout. simpl in Hout. congruence.
      * intros _. exists (prog :: args), so, se. rewrite Hspawn. by repeat split.
      * discriminate.
      * intros argv [= <-] _. rewrite Hspawn. discriminate.
      * intros _. exists (prog :: args), code, so, se. rewrite Hspawn. by repeat split.
      * discriminate.
      * intros (argv & ? & ? & [= <-] & _ & Hout).
        rewrite Hspawn in Hout. simpl in Hout. congruence.
      * discriminate.
      * intros argv [= <-] _. rewrite Hspawn. discriminate.
    + simpl. repeat split.
      * discriminate.
      * intros (argv & ? & ? & ? & [= <-] & _ & Hout & _).
        rewrite Hspawn in Hout. discriminate.
      * discriminate.
      * intros (argv & ? & ? & [= <-] & _ & Hout).
        rewrite Hspawn in Hout. discriminate.
      * discriminate.
  - repeat split; try discriminate.
    + intros (argv & ? & ? & ? & ? & _). discriminate.
    + intros (argv & ? & ? & ? & _). discriminate.
Qed.


Lemma writers_never_overwrite_witness :
  let s := start populated in
  let github := GitHubManager_init None None in
  create_gitignore show_json demo_dir github ["Python"] s = (Ret tt, s)
  /\ create_license demo_dir "Ada" github "mit" s = (Ret tt, s)
  /\ create_readme demo_dir "Ada" "demo" s = (Ret tt, s).
Proof.
  intros s github.
  destruct (writers_never_overwrite Git.host Git.host_world show_json demo_dir "Ada"
              github s) as (Hgitignore & Hlicense & Hreadme).
  split; [| split].
  - apply Hgitignore. vm_compute. reflexivity.
  - apply Hlicense. vm_compute. reflexivity.
  - apply Hreadme. vm_compute. reflexivity.
Defined.

Lemma run_command_outcomes_witness :
  run_command demo_dir (CmdStr ("git commit -m " +:+ dq +:+ "say " +:+ dq +:+ "hi" +:+ dq))
    (start (Git.fresh demo_dir))
  = (Raise ValueError, start (Git.fresh demo_dir))
  /\ (run_command demo_dir (CmdStr "git init") (start without_git)).1 = Raise OSError.
Proof.
  split.
  - apply (run_command_outcomes Git.host Git.host_world demo_dir
             (CmdStr ("git commit -m " +:+ dq +:+ "say " +:+ dq +:+ "hi" +:+ dq))
             (start (Git.fresh demo_dir))).
    vm_compute. reflexivity.
  - destruct (run_command_outcomes Git.host Git.host_world demo_dir (CmdStr "git init")
                (start without_git)) as (_ & _ & _ & Hspawn).
    apply (Hspawn ["git"; "init"]).
    + vm_compute. reflexivity.
    + discriminate.
    + vm_compute. reflexivity.
Defined.

(** C10, as stated, fails: an exception reaches the caller of
    [run_command] when the command string does not tokenize (a commit
    message holding one double quote, passed through [commit_changes])
    and when the executable is missing. *)
Lemma run_command_can_raise :
  (commit_changes demo_dir ("say " +:+ dq +:+ "hi") false (start (Git.fresh demo_dir))).1
    = Raise ValueError
  /\ (initialize_repo demo_dir (start without_git)).1 = Raise OSError.
Proof. split; vm_compute; reflexivity. Qed.

(** ** Local-only runs *)

(** C1, at its failing input. Without a remote URL, on a new project
    directory, [setup_project] still issues [git push origin staging]
    (step 6 of the topology has no guard), the push fails for want of a
    remote, and setup returns [False] there. More generally, whenever a
    setup without a URL returns [True], that push was among the commands
    it issued. *)
Theorem setup_without_remote_pushes_staging :
  (let result := setup_project demo_dir None "main" "dev" "staging" ["feature-x"]
                   (start (Git.fresh demo_dir)) in
   result.1 = Ret false
   /\ issued result.2
      = [ ["git"; "init"];
          ["git"; "checkout"; "-b"; "main"];
          ["git"; "commit"; "-m"; "Initial empty commit"; "--allow-empty"];
          ["git"; "checkout"; "main"];
          ["git"; "checkout"; "-b"; "dev"];
          ["git"; "checkout"; "main"];
          ["git"; "checkout"; "-b"; "staging"];
          ["git"; "commit"; "-m"; "Initial empty commit on staging"; "--allow-empty"];
          ["git"; "push"; "origin"; "staging"] ]
   /\ existsb targets_remote (issued result.2) = true)
  /\ (forall (W : Type) (HW : World W) (project_path : string) (features : list string)
        (s : state W),
        let result := setup_project project_path None "main" "dev" "staging" features s in
        result.1 = Ret true ->
        ["git"; "push"; "origin"; "staging"] ∈ issued result.2).
Proof.
  split.
  - vm_compute. repeat split.
  - intros W HW project_path features s result Hok.
    unfold result in *. rewrite setup_project_plan in *.
    destruct (run_steps_issued project_path
                (setup_plan None "main" "dev" "staging" features) s)
      as (n & _ & Hissued & Hall).
    rewrite Hissued, (Hall Hok), firstn_all.
    apply elem_of_app. right.
    apply list_elem_of_omap. exists "git push origin staging". split.
    + unfold setup_plan, init_plan, branches_plan. simpl.
      do 8 apply list_elem_of_further. apply list_elem_of_here.
    + vm_compute. reflexivity.
Qed.

Lemma setup_without_remote_pushes_staging_witness :
  ["git"; "push"; "origin"; "staging"]
    ∈ issued (setup_project demo_dir None "main" "dev" "staging" ["feature-x"]
                (start cloned_empty)).2.
Proof.
  apply setup_without_remote_pushes_staging.
  vm_compute. reflexivity.
Defined.

(** C2, at its failing input (the scenario of the specification: no
    GitHub, feature branch [feature-x], a new directory). Setup does not
    succeed: it returns [False] at the push of staging, leaving the
    branches main, dev and staging, no feature branch, and staging as the
    active branch; [create_project] reports the failure and writes no
    file. *)
Theorem local_only_setup_fails :
  let result := setup_project demo_dir None "main" "dev" "staging" ["feature-x"]
                  (start (Git.fresh demo_dir)) in
  let app := create_project show_json None None demo_dir "Ada" "Python" "mit"
               ["feature-x"] "demo" None false (start (Git.fresh demo_dir)) in
  result.1 = Ret false
  /\ dom (Git.branches (world result.2)) = {["main"; "dev"; "staging"]}
  /\ Git.branches (world result.2) !! "feature-x" = None
  /\ Git.head (world result.2) = "staging"
  /\ dialogs app.2 = [("showerror", "CodeGenesis Error", "Git setup failed!")]
  /\ Git.files (world app.2) = ∅.
Proof. vm_compute. repeat split. Qed.

(** ** Tokenizing the commands of the workflow *)

Lemma append_literal (a : ascii) (b : string) : String a EmptyString +:+ b = String a b.
Proof. reflexivity. Qed.

Lemma lex_word (w tok rest : string) :
  plain_chars w = true ->
  Shlex.lex Shlex.InWord tok false (w +:+ rest)
  = Shlex.lex Shlex.InWord (tok +:+ w) false rest.
Proof.
  revert tok. induction w as [|c w IH]; intros tok Hw.
  - rewrite append_empty. f_equal. induction tok as [|x tok IHt]; [reflexivity |].
    rewrite append_cons. by rewrite <- IHt.
  - simpl in Hw. rewrite !andb_true_iff, !negb_true_iff in Hw.
    destruct Hw as [[[Hws Hq] He] Hw].
    rewrite append_cons. cbn [Shlex.lex]. rewrite Hws, Hq, He.
    rewrite IH by exact Hw. unfold Shlex.add_char.
    by rewrite append_assoc, append_literal.
Qed.

Lemma split_word_then (w rest : string) :
  w <> EmptyString -> plain_chars w = true ->
  Shlex.lex Shlex.InSpace EmptyString false (w +:+ String " " rest)
  = option_map (cons w) (Shlex.lex Shlex.InSpace EmptyString false rest).
Proof.
  intros Hne Hw. destruct w as [|c w]; [done |].
  simpl in Hw. rewrite !andb_true_iff, !negb_true_iff in Hw.
  destruct Hw as [[[Hws Hq] He] Hw].
  rewrite append_cons. cbn [Shlex.lex]. rewrite Hws, Hq, He.
  rewrite lex_word by exact Hw. rewrite append_literal.
  reflexivity.
Qed.

Lemma split_word_last (w : string) :
  w <> EmptyString -> plain_chars w = true ->
  Shlex.lex Shlex.InSpace EmptyString false w = Some [w].
Proof.
  intros Hne Hw. destruct w as [|c w]; [done |].
  simpl in Hw. rewrite !andb_true_iff, !negb_true_iff in Hw.
  destruct Hw as [[[Hws Hq] He] Hw].
  cbn [Shlex.lex]. rewrite Hws, Hq, He.
  assert (Hw' : w = w +:+ EmptyString).
  { clear. induction w as [|x w IH]; [reflexivity |]. rewrite append_cons. by rewrite <- IH. }
  rewrite Hw' at 1. rewrite lex_word by exact Hw. rewrite append_literal.
  reflexivity.
Qed.

(** A command made of plain words separated by single blanks tokenizes
    into these words. *)
Lemma split_join (words : list string) :
  Forall (fun w => w <> EmptyString /\ plain_chars w = true) words ->
  Shlex.split (join " " words) = Some words.
Proof.
  unfold Shlex.split. induction 1 as [|w words [Hne Hw] Hrest IH]; [reflexivity |].
  destruct words as [|w' words].
  - simpl. by apply split_word_last.
  - change (join " " (w :: w' :: words)) with (w +:+ String " " (join " " (w' :: words))).
    rewrite split_word_then by assumption. by rewrite IH.
Qed.

Lemma plain_word (w : string) :
  plain w = true -> w <> EmptyString /\ plain_chars w = true /\ Git.is_option w = false.
Proof.
  unfold plain. rewrite !andb_true_iff, !negb_true_iff.
  intros [[Hne Hopt] Hw]. repeat split; try assumption.
  intros ->. discriminate.
Qed.

Ltac word :=
  first
    [ split; [discriminate | reflexivity]
    | match goal with
      | H : plain ?w = true |- ?w <> _ /\ _ =>
          split; [exact (proj1 (plain_word w H)) | exact (proj1 (proj2 (plain_word w H)))]
      end ].

Ltac words := repeat (apply List.Forall_cons; [word |]); apply List.Forall_nil.


Lemma tokens_checkout_new (b : string) :
  plain b = true ->
  Shlex.split ("git checkout -b " +:+ b) = Some ["git"; "checkout"; "-b"; b].
Proof. intros Hb. apply (split_join ["git"; "checkout"; "-b"; b]). words. Qed.





(** ** Running plans on the repository model *)

Lemma run_git (h : Git.host) (cmd : string) (argv : list string) (c : Git.git_command)
    (i : list (list string)) (r : list request) (d : list (string * string * string)) :
  Git.git_installed h = true ->
  Shlex.split cmd = Some argv ->
  Git.parse argv = Some c ->
  run_command (Git.root h) (CmdStr cmd) (State h i r d)
  = (Ret ((Git.exec c h).1 =? 0), State (Git.exec c h).2 (i ++ [argv]) r d).
Proof.
  intros Hinst Hsplit Hparse.
  unfold run_command. rewrite Hsplit.
  destruct argv as [|prog [|sub args]]; try discriminate.
  cbn [spawn Git.host_world world]. unfold Git.run.
  rewrite Hinst, String.eqb_refl. cbn [negb orb].
  destruct (String.eqb prog "git") eqn:Hprog.
  - cbn [negb]. rewrite Hparse. destruct (Git.exec c h) as [status h'].
    cbn [fst snd]. by destruct (status =? 0).
  - unfold Git.parse in Hparse. rewrite Hprog in Hparse. discriminate.
Qed.




Lemma reads_checkout_new (b : string) :
  plain b = true -> reads_as ("git checkout -b " +:+ b) (Git.GCheckoutNew b).
Proof.
  intros Hb. eexists. split; [by apply tokens_checkout_new |].
  destruct (plain_word b Hb) as (_ & _ & Hopt). unfold Git.parse. simpl. by rewrite Hopt.
Qed.












(** ** Re-running setup *)

(** C4, as stated, fails: setup run a second time on the directory of a
    first successful run (where [main] exists) stops at
    [git checkout -b main]; the creation of dev is not even issued. *)
Lemma rerun_stops_before_dev :
  let url := Some "https://github.com/octocat/demo.git" in
  let first := setup_project demo_dir url "main" "dev" "staging" []
                 (start (Git.fresh demo_dir)) in
  let again := setup_project demo_dir url "main" "dev" "staging" []
                 (start (world first.2)) in
  first.1 = Ret true
  /\ is_Some (Git.branches (world first.2) !! "main")
  /\ again.1 = Ret false
  /\ issued again.2 = [ ["git"; "init"]; ["git"; "checkout"; "-b"; "main"] ]
  /\ ["git"; "checkout"; "-b"; "dev"] ∉ issued again.2.
Proof.
  vm_compute. repeat split; eauto.
  intros Hin. apply list_elem_of_In in Hin. simpl in Hin.
  destruct Hin as [[=] | [[=] | []]].
Qed.

(** C4, as the code has it. Setup run on a repository in which the
    branch [main] already exists fails deterministically at the creation
    of main: [git init] succeeds on the existing repository,
    [git checkout -b main] is the command that fails, nothing else is
    issued and the repository is left as it was. *)
Theorem rerun_setup_fails_at_main :
  forall (h : Git.host) (repo_url : option string)
    (main_branch dev_branch staging_branch : string) (features : list string)
    (i : list (list string)) (r : list request) (d : list (string * string * string)),
    Git.git_installed h = true ->
    Git.initialized h = true ->
    plain main_branch = true ->
    is_Some (Git.branches h !! main_branch) ->
    setup_project (Git.root h) repo_url main_branch dev_branch staging_branch features
      (State h i r d)
    = (Ret false,
       State h (i ++ [ ["git"; "init"]; ["git"; "checkout"; "-b"; main_branch] ]) r d).
Proof.
  intros h repo_url main_branch dev_branch staging_branch features i r d
    Hinst Hinit Hmain [c Hc].
  rewrite setup_project_plan. unfold setup_plan, init_plan.
  simpl app. simpl run_steps. unfold bind.
  rewrite (run_git h "git init" ["git"; "init"] Git.GInit i r d Hinst eq_refl eq_refl).
  assert (Hexec1 : Git.exec Git.GInit h = (0, h)).
  { unfold Git.exec. by rewrite Hinit. }
  rewrite Hexec1. cbn [fst snd Z.eqb].
  destruct (reads_checkout_new _ Hmain) as (a2 & Ha2 & Hp2).
  rewrite (run_git h _ a2 _ (i ++ [["git"; "init"]]) r d Hinst Ha2 Hp2).
  rewrite tokens_checkout_new in Ha2 by exact Hmain. injection Ha2 as <-.
  assert (Hexec2 : Git.exec (Git.GCheckoutNew main_branch) h = (128, h)).
  { unfold Git.exec. rewrite Hinit, Hc. cbn [negb].
    destruct (plain_word _ Hmain) as (Hne & _).
    destruct (String.eqb_spec main_branch EmptyString); [done | reflexivity]. }
  rewrite Hexec2. cbn [fst snd Z.eqb]. unfold ret. by rewrite <- app_assoc.
Qed.

Lemma rerun_setup_fails_at_main_witness :
  let h := world (setup_project demo_dir (Some "https://github.com/octocat/demo.git")
                    "main" "dev" "staging" ["feature-x"] (start (Git.fresh demo_dir))).2 in
  setup_project demo_dir None "main" "dev" "staging" ["feature-x"] (State h [] [] [])
  = (Ret false, State h [ ["git"; "init"]; ["git"; "checkout"; "-b"; "main"] ] [] []).
Proof.
  intros h.
  apply (rerun_setup_fails_at_main h None "main" "dev" "staging" ["feature-x"] [] [] []).
  - vm_compute. reflexivity.
  - vm_compute. reflexivity.
  - vm_compute. reflexivity.
  - vm_compute. eauto.
Defined.

(** ** Bind-and-seed *)







(** ** The workflow on the repository model *)






























Section Files.
Variable rt : string.
Variable name : string.
Hypothesis Hname : String.prefix "/" name = false.



End Files.









(** ** Branch contents after the full workflow *)




